(** * ControlScript-v1.py: the OrcaFlex offset controller

    A shallow embedding of the class [OffsetControl] of
    [src/ControlScript-v1.py] (methods [Initialise], [Calculate] and
    [Finalise]) and the properties of its rate-limited tracking step.

    - Python numbers are kept abstract behind the class [Number]; it is
      instantiated with exact rationals ([Q], the "finite real numbers" the
      controller's contract speaks of) and with IEEE binary64 floats
      ([PrimFloat.float], what the interpreter computes with).
    - A Python object is its attribute dictionary: [self] is a
      [gmap string Value]; reading an attribute that was never assigned
      raises [AttributeError].
    - The methods run in a small state-and-exception monad over the pair
      ([self], [info]) and the GUI. *)

From Stdlib Require Import ZArith QArith Qabs Qround Lqa Lia.
From Stdlib Require Import PrimFloat.
From stdpp Require Import gmap strings.

Local Open Scope Z_scope.

(** ** Python numbers *)

Class Number (F : Type) := {
  flit : Q -> F;            (* the value of a numeric literal *)
  fsub : F -> F -> F;       (* a - b *)
  fmul : F -> F -> F;       (* a * b *)
  fdiv : F -> F -> F;       (* a / b, true division *)
  fabs : F -> F;            (* abs(a) *)
  fgt : F -> F -> bool;     (* a > b *)
  flt : F -> F -> bool;     (* a < b *)
  feq : F -> F -> bool      (* a == b *)
}.

Declare Scope py_scope.
Delimit Scope py_scope with py.
Notation "a - b" := (fsub a b) : py_scope.
Notation "a * b" := (fmul a b) : py_scope.
Notation "a / b" := (fdiv a b) : py_scope.
Notation "a >? b" := (fgt a b) (at level 70, no associativity) : py_scope.
Notation "a <? b" := (flt a b) (at level 70, no associativity) : py_scope.
Notation "a =? b" := (feq a b) (at level 70, no associativity) : py_scope.

(** [numpy.sign]: [x > 0 ? 1 : (x < 0 ? -1 : (x == 0 ? 0 : x))]; the last
    alternative is only reached by a NaN, whose sign is itself. *)
Definition sign {F} `{Number F} (x : F) : F :=
  if (x >? flit 0)%py then flit 1
  else if (x <? flit 0)%py then flit (-1)
  else if (x =? flit 0)%py then flit 0
  else x.

(** Exact rational arithmetic. *)
#[export] Instance Q_Number : Number Q := {|
  flit q := q;
  fsub := Qminus;
  fmul := Qmult;
  fdiv := Qdiv;
  fabs := Qabs;
  fgt a b := negb (Qle_bool a b);
  flt a b := negb (Qle_bool b a);
  feq := Qeq_bool
|}.

(** IEEE binary64.  A literal is the correctly rounded quotient of its
    numerator and denominator (both below 2^53 for every literal of the
    script), which is the double the interpreter reads it as. *)
Fixpoint float_of_pos (p : positive) : float :=
  match p with
  | xH => PrimFloat.one
  | xO p' => PrimFloat.mul PrimFloat.two (float_of_pos p')
  | xI p' => PrimFloat.add (PrimFloat.mul PrimFloat.two (float_of_pos p')) PrimFloat.one
  end.

Definition float_of_Z (z : Z) : float :=
  match z with
  | Z0 => PrimFloat.zero
  | Zpos p => float_of_pos p
  | Zneg p => PrimFloat.opp (float_of_pos p)
  end.

Definition float_of_Q (q : Q) : float :=
  PrimFloat.div (float_of_Z (Qnum q)) (float_of_pos (Qden q)).

#[export] Instance float_Number : Number float := {|
  flit := float_of_Q;
  fsub := PrimFloat.sub;
  fmul := PrimFloat.mul;
  fdiv := PrimFloat.div;
  fabs := PrimFloat.abs;
  fgt a b := PrimFloat.ltb b a;
  flt a b := PrimFloat.ltb a b;
  feq := PrimFloat.eqb
|}.

(** ** The tracking step (Calculate, lines 104-113) *)

(** Names of the two controlled model objects (lines 27-28). *)
Definition OffsetMaster : string := "ShaftOffset-Controlled".
Definition SupportMaster : string := "MoveSupport-Controlled".

Section Tracker.
Context {F : Type} `{Number F}.

(** The branch of lines 108-113, on the three values stored just before. *)
Definition PositionNew (Name : string)
    (PositionLast PositionError ErrorDir RateStep : F) : F :=
  if (fabs PositionError >? RateStep)%py then
    (PositionLast - (RateStep * ErrorDir))%py
  else if String.eqb Name SupportMaster then PositionLast
  else (PositionLast - (PositionError * ErrorDir))%py.

(** One tracking step: the new position from the last position, the target
    offset and the rate step, for the model object called [Name]. *)
Definition advance (Name : string) (PositionLast TargetOffset RateStep : F) : F :=
  let PositionError := (PositionLast - TargetOffset)%py in
  let ErrorDir := sign PositionError in
  PositionNew Name PositionLast PositionError ErrorDir RateStep.

(** [n] successive steps with the target and the rate step held fixed. *)
Fixpoint track (n : nat) (Name : string) (Position TargetOffset RateStep : F) : F :=
  match n with
  | O => Position
  | S n' => track n' Name (advance Name Position TargetOffset RateStep) TargetOffset RateStep
  end.
End Tracker.


(** ** Objects, the host's [info] and the GUI *)

(** What a call can raise. *)
Inductive exn :=
| AttributeError (attr : string)   (* an attribute that was never assigned *)
| KeyError (key : string)          (* a missing dictionary key *)
| IndexError                       (* a list index out of range *)
| TypeError                        (* an operand of the wrong type *)
| SystemExit.                      (* sys.exit() *)

Inductive outcome (A : Type) :=
| Return (a : A)
| Raise (e : exn).
Arguments Return {A} a.
Arguments Raise {A} e.

Section Controller.
Context {F : Type} `{Number F}.

(** A PySimpleGUI layout element (lines 60-65). *)
Inductive Element :=
| Text (text : string)
| Slider (range : F * F) (default_value resolution : F) (size : Z * Z)
         (orientation : string) (enable_events : bool) (key : string).

(** A PySimpleGUI window (line 67), open until [close] is called. *)
Record Window := {
  title : string;
  layout : list (list Element);
  closed : bool
}.

(** The values an attribute of [self] can hold. *)
#[local] Set Warnings "-register-all".
Inductive Value :=
| VNum (x : F)
| VStr (s : string)
| VList (l : list Value)
| VPeriod                          (* OrcFxAPI.Period(pnInstantaneousValue) *)
| VWindow (w : Window).

(** The part of the host's [info] argument the script touches. *)
Record Info := {
  ModelObjectName : string;              (* info.ModelObject.Name *)
  ImplicitConstantTimeStep : F;          (* info.Model['General'].ImplicitConstantTimeStep *)
  NewTimeStep : bool;                    (* info.NewTimeStep *)
  SimulationTime : F;                    (* info.SimulationTime *)
  Position0 : F;                         (* info.StructValue.Position[0] *)
  Workspace : gmap string F              (* info.Workspace *)
}.

Record World := {
  self : gmap string Value;              (* the instance's attributes *)
  info : Info;
  theme : option string                  (* the GUI theme in force *)
}.

(** What [window.Read(timeout=10)] hands back: the event ([None] when the
    window was closed, the element's key when a slider moved, the timeout key
    when nothing happened) and the dictionary of slider values. *)
Definition ReadResult : Type := option string * gmap string F.

(** *** The monad *)

Definition M (A : Type) : Type := World -> outcome A * World.

#[export] Instance M_ret : MRet M := fun A a w => (Return a, w).
#[export] Instance M_bind : MBind M := fun A B k m w =>
  match m w with
  | (Return a, w') => k a w'
  | (Raise e, w') => (Raise e, w')
  end.

Definition raise {A} (e : exn) : M A := fun w => (Raise e, w).

Definition getattr (attr : string) : M Value := fun w =>
  match self w !! attr with
  | Some v => (Return v, w)
  | None => (Raise (AttributeError attr), w)
  end.

Definition setattr (attr : string) (v : Value) : M unit := fun w =>
  (Return tt, {| self := <[attr := v]> (self w); info := info w; theme := theme w |}).

Definition get_info : M Info := fun w => (Return (info w), w).

Definition set_Workspace (key : string) (x : F) : M unit := fun w =>
  let i := info w in
  (Return tt,
   {| self := self w;
      info := {| ModelObjectName := ModelObjectName i;
                 ImplicitConstantTimeStep := ImplicitConstantTimeStep i;
                 NewTimeStep := NewTimeStep i;
                 SimulationTime := SimulationTime i;
                 Position0 := Position0 i;
                 Workspace := <[key := x]> (Workspace i) |};
      theme := theme w |}).

Definition get_Workspace (key : string) : M F := fun w =>
  match Workspace (info w) !! key with
  | Some x => (Return x, w)
  | None => (Raise (KeyError key), w)
  end.

Definition set_Position0 (x : F) : M unit := fun w =>
  let i := info w in
  (Return tt,
   {| self := self w;
      info := {| ModelObjectName := ModelObjectName i;
                 ImplicitConstantTimeStep := ImplicitConstantTimeStep i;
                 NewTimeStep := NewTimeStep i;
                 SimulationTime := SimulationTime i;
                 Position0 := x;
                 Workspace := Workspace i |};
      theme := theme w |}).

Definition set_theme (t : string) : M unit := fun w =>
  (Return tt, {| self := self w; info := info w; theme := Some t |}).

(** Dynamic typing: the operand of an arithmetic operation or comparison. *)
Definition num (v : Value) : M F :=
  match v with
  | VNum x => mret x
  | _ => raise TypeError
  end.

(** [l[i]] *)
Definition item (i : nat) (v : Value) : M Value :=
  match v with
  | VList l => match l !! i with
               | Some x => mret x
               | None => raise IndexError
               end
  | _ => raise TypeError
  end.

(** [self.<attr>] as a number, [self.<attr>[i]], and the latter as a number. *)
Definition getnum (attr : string) : M F := getattr attr ≫= num.
Definition getitem (attr : string) (i : nat) : M Value := getattr attr ≫= item i.
Definition getitemnum (attr : string) (i : nat) : M F := getitem attr i ≫= num.

(** [values[key]] on the dictionary returned by [Read]. *)
Definition value_of (values : gmap string F) (key : string) : M F :=
  match values !! key with
  | Some x => mret x
  | None => raise (KeyError key)
  end.

(** [info.ModelObject.Name == self.<attr>]: reads the attribute; [==] between
    a string and anything else is [False]. *)
Definition name_is (attr : string) : M bool :=
  i ← get_info;
  v ← getattr attr;
  mret match v with
       | VStr s => String.eqb (ModelObjectName i) s
       | _ => false
       end.

(** A conditional block without [else]. *)
Definition when (b : bool) (body : M unit) : M unit :=
  if b then body else mret tt.

(** ** The methods of [OffsetControl] *)

(** [Initialise(self, info)], lines 17-67.  [OrcFxAPI] and the model's
    time step belong to the host: the period object is kept as an opaque
    value and the time step is read from [info]. *)
Definition Initialise : M unit :=
  setattr "periodNow" VPeriod;;
  setattr "StartTime" (VNum (flit 1));;
  i ← get_info;
  setattr "TimeStep" (VNum (ImplicitConstantTimeStep i));;
  setattr "OffsetMaster" (VStr OffsetMaster);;
  setattr "SupportMaster" (VStr SupportMaster);;
  setattr "GUItext" (VList [VStr "Cam Offset (mm)"; VStr "Support Offset (m)"]);;
  setattr "ScaleMax" (VList [VNum (flit 150); VNum (flit 3.0)]);;
  setattr "ScaleMin" (VList [VNum (flit 0); VNum (flit 0)]);;
  setattr "RateMaxList" (VList [VNum (flit 0.02); VNum (flit 0.30)]);;
  setattr "ScaleRes" (VList [VNum (flit 1); VNum (flit 0.01)]);;
  (* control settings for changing piston offset *)
  b ← name_is "OffsetMaster";
  when b (
    r ← getitem "RateMaxList" 0;
    setattr "RateMax" r;;
    rm ← getnum "RateMax";
    ts ← getnum "TimeStep";
    setattr "RateStep" (VNum (rm * ts)%py);;
    smax ← getitemnum "ScaleMax" 0;
    setattr "maxOffset" (VNum (smax / flit 1000)%py);;
    smin ← getitemnum "ScaleMin" 0;
    setattr "TargetOffset" (VNum (smin / flit 1000)%py);;
    setattr "TargetOffsetScale" (VNum (flit 0));;
    t ← getnum "TargetOffsetScale";
    set_Workspace "camdata" t);;
  (* control settings for changing support offset *)
  b ← name_is "SupportMaster";
  when b (
    r ← getitem "RateMaxList" 1;
    setattr "RateMax" r;;
    rm ← getnum "RateMax";
    ts ← getnum "TimeStep";
    setattr "RateStep" (VNum (rm * ts)%py);;
    smax ← getitem "ScaleMax" 1;
    setattr "maxOffset" smax;;
    smin ← getitem "ScaleMin" 1;
    setattr "TargetOffset" smin;;
    setattr "TargetOffsetScale" (VNum (flit 0));;
    t ← getnum "TargetOffsetScale";
    set_Workspace "supportdata" t);;
  (* the slider window, created by one model object only *)
  b ← name_is "OffsetMaster";
  when b (
    set_theme "DarkAmber";;
    t0 ← getitem "GUItext" 0;
    lo0 ← getitemnum "ScaleMin" 0; hi0 ← getitemnum "ScaleMax" 0;
    re0 ← getitemnum "ScaleRes" 0;
    t1 ← getitem "GUItext" 1;
    lo1 ← getitemnum "ScaleMin" 1; hi1 ← getitemnum "ScaleMax" 1;
    re1 ← getitemnum "ScaleRes" 1;
    let label v := match v with VStr s => s | _ => "" end in
    setattr "window" (VWindow {|
      title := "slider GUI";
      layout := [ [Text (label t0)];
                  [Slider (lo0, hi0) lo0 re0 (15, 15) "v" true "cam"];
                  [Text (label t1)];
                  [Slider (lo1, hi1) lo1 re1 (15, 15) "v" true "support"] ];
      closed := false |})).

(** Lines 76-88: read the sliders; done by one model object only, the values
    are shared through the workspace.  [read] is what [window.Read] returns. *)
Definition read_sliders (read : ReadResult) : M unit :=
  b ← name_is "OffsetMaster";
  when b (
    w ← getattr "window";
    match w with VWindow _ => mret tt | _ => raise (AttributeError "Read") end;;
    let '(event, values) := read in
    (* exit if the window was closed or Exit selected *)
    match event with
    | None => raise SystemExit
    | Some e =>
        if String.eqb e "Exit" then raise SystemExit else
        (* record the result if there is an input change *)
        when (String.eqb e "cam") (
          v ← value_of values "cam";
          set_Workspace "camdata" v);;
        when (String.eqb e "support") (
          v ← value_of values "support";
          set_Workspace "supportdata" v)
    end).

(** Lines 90-96: the target offset of this model object. *)
Definition define_target : M unit :=
  b ← name_is "OffsetMaster";
  when b (
    c ← get_Workspace "camdata";
    setattr "TargetOffsetScale" (VNum c);;
    t ← getnum "TargetOffsetScale";
    setattr "TargetOffset" (VNum (t / flit 1000)%py));;
  b ← name_is "SupportMaster";
  when b (
    c ← get_Workspace "supportdata";
    setattr "TargetOffsetScale" (VNum c);;
    t ← getattr "TargetOffsetScale";
    setattr "TargetOffset" t).

(** Lines 102-116: the change of the X position for this time step. *)
Definition track_position : M unit :=
  (* the position error from the target position *)
  i ← get_info;
  setattr "PositionLast" (VNum (Position0 i));;
  pl ← getnum "PositionLast";
  tgt ← getnum "TargetOffset";
  setattr "PositionError" (VNum (pl - tgt)%py);;
  pe ← getnum "PositionError";
  setattr "ErrorDir" (VNum (sign pe));;
  (* the position change required for the time step *)
  pe ← getnum "PositionError";
  rs ← getnum "RateStep";
  pn ← (
    if (fabs pe >? rs)%py then
      pl ← getnum "PositionLast";
      rs ← getnum "RateStep";
      ed ← getnum "ErrorDir";
      mret (pl - (rs * ed))%py
    else
      b ← name_is "SupportMaster";
      if b : bool then getnum "PositionLast"
      else
        pl ← getnum "PositionLast";
        pe ← getnum "PositionError";
        ed ← getnum "ErrorDir";
        mret (pl - (pe * ed))%py : M F);
  (* the X position fed into the model *)
  set_Position0 pn.

(** [Calculate(self, info)], lines 70-116. *)
Definition Calculate (read : ReadResult) : M unit :=
  i ← get_info;
  (* only run for new time steps *)
  if negb (NewTimeStep i) then mret tt else
  read_sliders read;;
  define_target;;
  (* only start after the specified time *)
  i ← get_info;
  st ← getnum "StartTime";
  if (SimulationTime i <? st)%py then mret tt else
  track_position.

(** [Finalise(self, info)], lines 120-121: [self.window.close()].  The
    toolkit's [close] is taken to mark the window closed, also when it
    already is. *)
Definition Finalise : M unit :=
  w ← getattr "window";
  match w with
  | VWindow win =>
      setattr "window" (VWindow {| title := title win; layout := layout win; closed := true |})
  | _ => raise (AttributeError "close")
  end.

End Controller.

(** ** The host's side *)

Section Host.
Context {F : Type} `{Number F}.

(** A newly created instance attached to the model object [Name], before
    [Initialise]: no attribute assigned, an empty workspace. *)
Definition new_instance (Name : string) (TimeStep : F) : World (F:=F) :=
  {| self := ∅;
     info := {| ModelObjectName := Name;
                ImplicitConstantTimeStep := TimeStep;
                NewTimeStep := true;
                SimulationTime := flit 0;
                Position0 := flit 0;
                Workspace := ∅ |};
     theme := None |}.

(** The host starts a new time step at time [t] with the structure at [pos]. *)
Definition host_step (t pos : F) (w : World (F:=F)) : World (F:=F) :=
  {| self := self w;
     info := {| ModelObjectName := ModelObjectName (info w);
                ImplicitConstantTimeStep := ImplicitConstantTimeStep (info w);
                NewTimeStep := true;
                SimulationTime := t;
                Position0 := pos;
                Workspace := Workspace (info w) |};
     theme := theme w |}.

(** The world a call leaves behind, whatever its outcome. *)
Definition run (m : M (F:=F) unit) (w : World (F:=F)) : World (F:=F) := snd (m w).

(** ** Notions used in the statements *)

(** [wp m Q w]: running [m] from [w] ends in an outcome and a world that
    satisfy [Q]. *)
Definition wp {A} (m : M (F:=F) A) (Q : outcome A -> World (F:=F) -> Prop)
    (w : World (F:=F)) : Prop :=
  Q (fst (m w)) (snd (m w)).

(** What the blocks of [Calculate] before the start-time test leave alone:
    the host's data and every attribute but the two target attributes. *)
Definition untracked (w w' : World (F:=F)) : Prop :=
  Position0 (info w') = Position0 (info w) /\
  SimulationTime (info w') = SimulationTime (info w) /\
  NewTimeStep (info w') = NewTimeStep (info w) /\
  ModelObjectName (info w') = ModelObjectName (info w) /\
  forall attr : string,
    attr <> "TargetOffsetScale" -> attr <> "TargetOffset" ->
    self w' !! attr = self w !! attr.

End Host.

(** The attributes only a recognised model object is given by [Initialise]. *)
Definition role_attributes : list string :=
  ["RateMax"; "RateStep"; "maxOffset"; "TargetOffset"; "TargetOffsetScale"; "window"].

(** The error's direction as the contract words it. *)
Definition is_direction (error direction : Q) : Prop :=
  (0 < error -> direction = 1)%Q /\ (error < 0 -> direction = -1)%Q /\
  (error == 0 -> direction = 0)%Q.

(** The positions the contract's example run can be at: a whole number of
    rate steps of 0.0004, at most 124 of them. *)
Definition on_example_grid (position : Q) : Prop :=
  exists j : Z, (0 <= j <= 124)%Z /\ (position == 0.0004 * inject_Z j)%Q.

(** * Properties *)


(** ** The tracking step in exact arithmetic *)

Section ExactTracking.
Local Open Scope Q_scope.

(** Read the operations of [Q_Number] as the rational ones. *)
Ltac q_ops :=
  change (@fsub Q Q_Number) with Qminus in *;
  change (@fmul Q Q_Number) with Qmult in *;
  change (@fdiv Q Q_Number) with Qdiv in *;
  change (@fabs Q Q_Number) with Qabs in *;
  repeat match goal with
         | |- context [@flit Q Q_Number ?q] => change (@flit Q Q_Number q) with q
         | H : context [@flit Q Q_Number ?q] |- _ => change (@flit Q Q_Number q) with q in H
         end.

Lemma Q_fgt_true (a b : Q) : fgt a b = true <-> b < a.
Proof.
  cbn. rewrite negb_true_iff, <- not_true_iff_false, Qle_bool_iff.
  split; [apply Qnot_le_lt | apply Qlt_not_le].
Qed.

Lemma Q_fgt_false (a b : Q) : fgt a b = false <-> a <= b.
Proof. cbn. rewrite negb_false_iff. apply Qle_bool_iff. Qed.

Lemma sign_pos (x : Q) : 0 < x -> sign x = 1.
Proof.
  intros Hx. unfold sign.
  destruct (fgt x (flit 0)) eqn:E; [reflexivity |].
  apply Q_fgt_false in E. cbn in E. lra.
Qed.

Lemma sign_neg (x : Q) : x < 0 -> sign x = -1.
Proof.
  intros Hx. unfold sign.
  destruct (fgt x (flit 0)) eqn:E.
  - apply Q_fgt_true in E. cbn in E. lra.
  - destruct (flt x (flit 0)) eqn:E'; [reflexivity |].
    cbn in E'. apply negb_false_iff, Qle_bool_iff in E'. lra.
Qed.

Lemma sign_zero (x : Q) : x == 0 -> sign x = 0.
Proof.
  intros Hx. unfold sign.
  destruct (fgt x (flit 0)) eqn:E.
  - apply Q_fgt_true in E. cbn in E. lra.
  - destruct (flt x (flit 0)) eqn:E'.
    + cbn in E'. apply negb_true_iff in E'.
      rewrite <- not_true_iff_false, Qle_bool_iff in E'. lra.
    + destruct (feq x (flit 0)) eqn:E''; [reflexivity |].
      cbn in E''. rewrite <- not_true_iff_false, Qeq_bool_iff in E''. contradiction.
Qed.

(** The three cases of the error's sign. *)
Lemma sign_cases (x : Q) :
  (0 < x /\ sign x = 1) \/ (x < 0 /\ sign x = -1) \/ (x == 0 /\ sign x = 0).
Proof.
  destruct (Q_dec x 0) as [[Hlt | Hgt] | Heq].
  - right; left. split; [exact Hlt | exact (sign_neg x Hlt)].
  - left. split; [exact Hgt | exact (sign_pos x Hgt)].
  - right; right. split; [exact Heq | exact (sign_zero x Heq)].
Qed.

Lemma Qabs_cases (x : Q) : (0 <= x /\ Qabs x == x) \/ (x < 0 /\ Qabs x == - x).
Proof.
  destruct (Qlt_le_dec x 0) as [Hlt | Hge].
  - right. split; [exact Hlt |]. apply Qabs_neg. lra.
  - left. split; [exact Hge |]. apply Qabs_pos. exact Hge.
Qed.

(** The branches of [advance], for any arithmetic. *)
Lemma advance_far {F} `{Number F} (Name : string) (cur tgt step : F) :
  fgt (fabs (fsub cur tgt)) step = true ->
  advance Name cur tgt step = fsub cur (fmul step (sign (fsub cur tgt))).
Proof. intros Hfar. unfold advance, PositionNew. rewrite Hfar. reflexivity. Qed.

Lemma advance_near_hold {F} `{Number F} (cur tgt step : F) :
  fgt (fabs (fsub cur tgt)) step = false ->
  advance SupportMaster cur tgt step = cur.
Proof. intros Hnear. unfold advance, PositionNew. rewrite Hnear. reflexivity. Qed.

Lemma advance_near_snap {F} `{Number F} (Name : string) (cur tgt step : F) :
  fgt (fabs (fsub cur tgt)) step = false ->
  Name <> SupportMaster ->
  advance Name cur tgt step = fsub cur (fmul (fsub cur tgt) (sign (fsub cur tgt))).
Proof.
  intros Hnear Hname. unfold advance, PositionNew. rewrite Hnear.
  destruct (String.eqb_spec Name SupportMaster) as [-> | _]; [contradiction | reflexivity].
Qed.

(** In exact arithmetic the step is one of three moves. *)
Lemma advance_exact (Name : string) (cur tgt step : Q) :
  0 <= step ->
  (step < Qabs (cur - tgt) /\ tgt < cur /\ advance Name cur tgt step == cur - step) \/
  (step < Qabs (cur - tgt) /\ cur < tgt /\ advance Name cur tgt step == cur + step) \/
  (Qabs (cur - tgt) <= step /\ Name = SupportMaster /\ advance Name cur tgt step == cur) \/
  (Qabs (cur - tgt) <= step /\ Name <> SupportMaster /\
   advance Name cur tgt step == cur - Qabs (cur - tgt)).
Proof.
  intros Hstep.
  destruct (fgt (fabs (fsub cur tgt)) step) eqn:Hcmp.
  - rewrite (advance_far Name _ _ _ Hcmp). apply Q_fgt_true in Hcmp. q_ops.
    destruct (sign_cases (cur - tgt)) as [[He ->] | [[He ->] | [He ->]]];
      destruct (Qabs_cases (cur - tgt)) as [[Ha Hb] | [Ha Hb]].
    all: try (left; split; [exact Hcmp | split; lra]).
    all: try (right; left; split; [exact Hcmp | split; lra]).
    all: exfalso; lra.
  - pose proof Hcmp as Hle. apply Q_fgt_false in Hle. q_ops.
    destruct (decide (Name = SupportMaster)) as [-> | Hne].
    + right; right; left. rewrite (advance_near_hold _ _ _ Hcmp).
      split; [exact Hle | split; reflexivity].
    + right; right; right. rewrite (advance_near_snap Name _ _ _ Hcmp Hne). q_ops.
      split; [exact Hle | split; [exact Hne |]].
      destruct (sign_cases (cur - tgt)) as [[He ->] | [[He ->] | [He ->]]];
        destruct (Qabs_cases (cur - tgt)) as [[Ha Hb] | [Ha Hb]]; lra.
Qed.


Lemma sign_is_direction (error : Q) : is_direction error (sign error).
Proof.
  repeat split; [apply sign_pos | apply sign_neg | apply sign_zero].
Qed.

(** C5: when the error exceeds the rate step, the new position is exactly the
    last position minus the rate step times the error's direction, whatever the
    model object's name; the direction is the sign of the error (0 at 0). *)
Theorem advance_far_moves_one_rate_step (Name : string) (current target maxStepDelta : Q) :
  maxStepDelta < Qabs (current - target) ->
  let error := current - target in
  let direction := sign error in
  is_direction error direction /\
  advance Name current target maxStepDelta = current - maxStepDelta * direction.
Proof.
  intros Hfar error direction. split; [apply sign_is_direction |].
  exact (advance_far Name current target maxStepDelta (proj2 (Q_fgt_true _ _) Hfar)).
Qed.

Lemma advance_far_moves_one_rate_step_witness :
  0.0004 < Qabs (0 - 0.050) /\
  advance OffsetMaster 0 0.050 0.0004 = 0 - 0.0004 * sign (0 - 0.050).
Proof.
  assert (Hfar : 0.0004 < Qabs (0 - 0.050)) by reflexivity.
  split; [exact Hfar |].
  exact (proj2 (advance_far_moves_one_rate_step OffsetMaster 0 0.050 0.0004 Hfar)).
Defined.



(** C6: within one rate step of the target the support object keeps its
    position; so it does at 1.5 with the target at 1.5005 and a rate step of
    0.006, in exact arithmetic and in binary64. *)
Theorem advance_support_holds_within_range (current target maxStepDelta : Q) :
  Qabs (current - target) <= maxStepDelta ->
  advance SupportMaster current target maxStepDelta = current
  /\ advance SupportMaster 1.5 1.5005 0.006 = 1.5
  /\ advance SupportMaster (flit 1.5 : float) (flit 1.5005) (flit 0.006) = flit 1.5.
Proof.
  intros Hnear. split; [| split; vm_compute; reflexivity].
  exact (advance_near_hold current target maxStepDelta (proj2 (Q_fgt_false _ _) Hnear)).
Qed.

Lemma advance_support_holds_within_range_witness :
  Qabs (2.999 - 3) <= 0.006 /\ advance SupportMaster 2.999 3 0.006 = 2.999.
Proof.
  assert (Hnear : Qabs (2.999 - 3) <= 0.006) by (vm_compute; discriminate).
  split; [exact Hnear |].
  exact (proj1 (advance_support_holds_within_range 2.999 3 0.006 Hnear)).
Defined.






End ExactTracking.

(** ** A program logic for the methods *)


Section Logic.
Context {F : Type} `{Number F}.
Implicit Types w : World (F:=F).

Lemma wp_ret {A} (a : A) Q w : Q (Return a) w -> wp (mret a) Q w.
Proof. exact id. Qed.

Lemma wp_raise {A} (e : exn) (Q : outcome A -> World -> Prop) w :
  Q (Raise e) w -> wp (raise e) Q w.
Proof. exact id. Qed.

Lemma wp_bind {A B} (m : M A) (k : A -> M B) Q w :
  wp m (fun o w' => match o with
                    | Return a => wp (k a) Q w'
                    | Raise e => Q (Raise e) w'
                    end) w ->
  wp (m ≫= k) Q w.
Proof.
  unfold wp, mbind, M_bind. destruct (m w) as [[a | e] w']; exact id.
Qed.

Lemma wp_setattr attr v Q w :
  Q (Return tt) {| self := <[attr := v]> (self w); info := info w; theme := theme w |} ->
  wp (setattr attr v) Q w.
Proof. exact id. Qed.

Lemma wp_get_info Q w : Q (Return (info w)) w -> wp get_info Q w.
Proof. exact id. Qed.

Lemma wp_getattr attr v Q w :
  self w !! attr = Some v -> Q (Return v) w -> wp (getattr attr) Q w.
Proof. intros Hv HQ. unfold wp, getattr. rewrite Hv. exact HQ. Qed.

Lemma wp_getattr_unset attr Q w :
  self w !! attr = None -> Q (Raise (AttributeError attr)) w -> wp (getattr attr) Q w.
Proof. intros Hv HQ. unfold wp, getattr. rewrite Hv. exact HQ. Qed.

Lemma wp_getnum attr x Q w :
  self w !! attr = Some (VNum x) -> Q (Return x) w -> wp (getnum attr) Q w.
Proof.
  intros Hv HQ. apply wp_bind, (wp_getattr attr (VNum x)); [exact Hv | exact HQ].
Qed.

Lemma wp_getitem attr i l v Q w :
  self w !! attr = Some (VList l) -> l !! i = Some v ->
  Q (Return v) w -> wp (getitem attr i) Q w.
Proof.
  intros Hl Hv HQ. apply wp_bind, (wp_getattr attr (VList l)); [exact Hl |].
  unfold wp, item. rewrite Hv. exact HQ.
Qed.

Lemma wp_getitemnum attr i l x Q w :
  self w !! attr = Some (VList l) -> l !! i = Some (VNum x) ->
  Q (Return x) w -> wp (getitemnum attr i) Q w.
Proof.
  intros Hl Hv HQ. apply wp_bind, (wp_getitem attr i l (VNum x)); [exact Hl | exact Hv | exact HQ].
Qed.

Lemma wp_name_is attr s Q w :
  self w !! attr = Some (VStr s) ->
  Q (Return (String.eqb (ModelObjectName (info w)) s)) w ->
  wp (name_is attr) Q w.
Proof.
  intros Hs HQ. unfold name_is. apply wp_bind, wp_get_info.
  apply wp_bind, (wp_getattr attr (VStr s)); [exact Hs | exact HQ].
Qed.

Lemma wp_set_Workspace key x Q w :
  Q (Return tt) (snd (set_Workspace key x w)) -> wp (set_Workspace key x) Q w.
Proof. exact id. Qed.

Lemma wp_get_Workspace key x Q w :
  Workspace (info w) !! key = Some x -> Q (Return x) w -> wp (get_Workspace key) Q w.
Proof. intros Hx HQ. unfold wp, get_Workspace. rewrite Hx. exact HQ. Qed.

Lemma wp_value_of values key x Q w :
  values !! key = Some x -> Q (Return x) w -> wp (value_of values key) Q w.
Proof. intros Hx HQ. unfold wp, value_of. rewrite Hx. exact HQ. Qed.

Lemma wp_set_Position0 x Q w :
  Q (Return tt) (snd (set_Position0 x w)) -> wp (set_Position0 x) Q w.
Proof. exact id. Qed.

Lemma wp_set_theme t Q w :
  Q (Return tt) {| self := self w; info := info w; theme := Some t |} ->
  wp (set_theme t) Q w.
Proof. exact id. Qed.

Lemma wp_when (b : bool) (body : M unit) Q (w : World (F:=F)) :
  (b = true -> wp body Q w) -> (b = false -> Q (Return tt) w) -> wp (when b body) Q w.
Proof. destruct b; intros Ht Hf; [apply Ht | apply Hf]; reflexivity. Qed.

Lemma wp_if {A} (b : bool) (m1 m2 : M A) Q (w : World (F:=F)) :
  (b = true -> wp m1 Q w) -> (b = false -> wp m2 Q w) ->
  wp (if b then m1 else m2) Q w.
Proof. destruct b; intros Ht Hf; [apply Ht | apply Hf]; reflexivity. Qed.

Lemma lookup_insert_skip {V} (m : gmap string V) (i j : string) (x : V) (r : option V) :
  i <> j -> m !! j = r -> <[i := x]> m !! j = r.
Proof. intros Hne <-. apply lookup_insert_ne. exact Hne. Qed.

End Logic.

Ltac solve_lookup :=
  cbn [self info theme Workspace snd];
  repeat first
    [ apply lookup_insert_eq
    | apply lookup_insert_skip; [discriminate |]
    | reflexivity
    | eassumption ].

Ltac wp_prim :=
  first
    [ apply wp_setattr
    | apply wp_get_info
    | apply wp_set_Workspace
    | apply wp_set_Position0
    | apply wp_set_theme
    | apply wp_ret
    | apply wp_raise
    | eapply wp_getnum; [solve_lookup |]
    | eapply wp_getitemnum; [solve_lookup | reflexivity |]
    | eapply wp_getitem; [solve_lookup | reflexivity |]
    | eapply wp_name_is; [solve_lookup |]
    | eapply wp_get_Workspace; [solve_lookup |]
    | eapply wp_value_of; [solve_lookup |]
    | eapply wp_getattr; [solve_lookup |] ].

(** One statement: descend to the head of a chain of binds, run it; a test
    splits in two, and the branch that contradicts a known test is closed. *)
Ltac wp_go :=
  lazymatch goal with
  | |- wp (mbind _ _) _ _ => apply wp_bind; wp_go
  | |- wp (when _ _) _ _ =>
      apply wp_when; intros ?; try solve [congruence | discriminate]
  | |- wp (if _ then _ else _) _ _ =>
      apply wp_if; intros ?; try solve [congruence | discriminate]
  | |- wp _ _ _ => wp_prim
  end.

Ltac wp_step :=
  wp_go;
  cbv beta iota; cbn [self info theme snd set_Workspace set_Position0 ModelObjectName
                      ImplicitConstantTimeStep NewTimeStep SimulationTime Position0 Workspace].

Section MethodFacts.
Context {F : Type} `{Number F}.
Implicit Types w : World (F:=F).

(** [Initialise] never raises. *)
Lemma Initialise_returns w : fst (Initialise w) = Return tt.
Proof.
  change (wp Initialise (fun o _ => o = Return tt) w).
  unfold Initialise. repeat wp_step. all: reflexivity.
Qed.

(** For an unrecognised name it sets the common attributes only. *)
Lemma Initialise_unrecognised w :
  ModelObjectName (info w) <> OffsetMaster ->
  ModelObjectName (info w) <> SupportMaster ->
  let w' := snd (Initialise w) in
  (forall attr, attr ∈ role_attributes -> self w' !! attr = self w !! attr) /\
  Workspace (info w') = Workspace (info w) /\
  Position0 (info w') = Position0 (info w) /\
  theme w' = theme w.
Proof.
  intros Ho Hs.
  apply String.eqb_neq in Ho, Hs.
  change (wp Initialise (fun _ w' =>
            (forall attr, attr ∈ role_attributes -> self w' !! attr = self w !! attr) /\
            Workspace (info w') = Workspace (info w) /\
            Position0 (info w') = Position0 (info w) /\
            theme w' = theme w) w).
  unfold Initialise. repeat wp_step.
  split; [| repeat split].
  intros attr Hin. unfold role_attributes in Hin.
  repeat (apply elem_of_cons in Hin as [-> | Hin]); [solve_lookup .. |].
  apply elem_of_nil in Hin. contradiction.
Qed.

(** Only the offset object gets a window. *)
Lemma Initialise_keeps_window w :
  ModelObjectName (info w) <> OffsetMaster ->
  self (snd (Initialise w)) !! "window" = self w !! "window".
Proof.
  intros Ho. apply String.eqb_neq in Ho.
  change (wp Initialise (fun _ w' => self w' !! "window" = self w !! "window") w).
  unfold Initialise. repeat wp_step. all: solve_lookup.
Qed.

(** What [Initialise] gives the offset object: its rate step is the product of
    the compiled-in rate and the model's time step, stored as it comes. *)
Lemma Initialise_offset w :
  ModelObjectName (info w) = OffsetMaster ->
  let w' := snd (Initialise w) in
  self w' !! "OffsetMaster" = Some (VStr OffsetMaster) /\
  self w' !! "SupportMaster" = Some (VStr SupportMaster) /\
  self w' !! "StartTime" = Some (VNum (flit 1)) /\
  self w' !! "RateStep"
  = Some (VNum (flit 0.02 * ImplicitConstantTimeStep (info w))%py) /\
  Workspace (info w') !! "camdata" = Some (flit 0) /\
  exists win, self w' !! "window" = Some (VWindow win) /\ closed win = false.
Proof.
  destruct w as [s [name ts new t pos ws] th]. cbn. intros ->.
  match goal with
  | |- context [Initialise ?w] =>
      change (wp Initialise (fun _ w' =>
        self w' !! "OffsetMaster" = Some (VStr OffsetMaster) /\
        self w' !! "SupportMaster" = Some (VStr SupportMaster) /\
        self w' !! "StartTime" = Some (VNum (flit 1)) /\
        self w' !! "RateStep" = Some (VNum (flit 0.02 * ts)%py) /\
        Workspace (info w') !! "camdata" = Some (flit 0) /\
        exists win, self w' !! "window" = Some (VWindow win) /\ closed win = false) w)
  end.
  unfold Initialise. repeat wp_step.
  repeat split; try solve_lookup.
  eexists. split; [solve_lookup | reflexivity].
Qed.

(** And the support object. *)
Lemma Initialise_support w :
  ModelObjectName (info w) = SupportMaster ->
  let w' := snd (Initialise w) in
  self w' !! "OffsetMaster" = Some (VStr OffsetMaster) /\
  self w' !! "SupportMaster" = Some (VStr SupportMaster) /\
  self w' !! "StartTime" = Some (VNum (flit 1)) /\
  self w' !! "RateStep"
  = Some (VNum (flit 0.30 * ImplicitConstantTimeStep (info w))%py) /\
  Workspace (info w') !! "supportdata" = Some (flit 0).
Proof.
  destruct w as [s [name ts new t pos ws] th]. cbn. intros ->.
  match goal with
  | |- context [Initialise ?w] =>
      change (wp Initialise (fun _ w' =>
        self w' !! "OffsetMaster" = Some (VStr OffsetMaster) /\
        self w' !! "SupportMaster" = Some (VStr SupportMaster) /\
        self w' !! "StartTime" = Some (VNum (flit 1)) /\
        self w' !! "RateStep" = Some (VNum (flit 0.30 * ts)%py) /\
        Workspace (info w') !! "supportdata" = Some (flit 0)) w)
  end.
  unfold Initialise. repeat wp_step.
  repeat split; solve_lookup.
Qed.

(** C8 as the code has it: for a model object whose name is neither the
    offset master's nor the support master's, [Initialise] returns normally;
    it assigns none of the role's attributes (rate, rate step, scale limit,
    target, window) and leaves the workspace, the position and the GUI theme
    as they were. *)
Theorem Initialise_unrecognised_name_returns w :
  ModelObjectName (info w) <> OffsetMaster ->
  ModelObjectName (info w) <> SupportMaster ->
  let w' := snd (Initialise w) in
  fst (Initialise w) = Return tt /\
  (forall attr, attr ∈ role_attributes -> self w' !! attr = self w !! attr) /\
  Workspace (info w') = Workspace (info w) /\
  Position0 (info w') = Position0 (info w) /\
  theme w' = theme w.
Proof.
  intros Ho Hs w'. split; [apply Initialise_returns |].
  exact (Initialise_unrecognised w Ho Hs).
Qed.

(** C9 at its failing input, and for every instance like it: [Finalise] on
    a model object other than the offset one, whose window was never created,
    raises [AttributeError]. *)
Theorem Finalise_without_window_raises w :
  ModelObjectName (info w) <> OffsetMaster ->
  self w !! "window" = None ->
  fst (Finalise (snd (Initialise w))) = Raise (AttributeError "window").
Proof.
  intros Ho Hw. pose proof (Initialise_keeps_window w Ho) as Hkeep.
  rewrite Hw in Hkeep.
  unfold Finalise, mbind, M_bind, getattr. rewrite Hkeep. reflexivity.
Qed.

(** With a window, [Finalise] closes it, and may be called again. *)
Lemma Finalise_closes_window w win :
  self w !! "window" = Some (VWindow win) ->
  let w' := snd (Finalise w) in
  fst (Finalise w) = Return tt /\
  self w' !! "window" =
    Some (VWindow {| title := title win; layout := layout win; closed := true |}) /\
  fst (Finalise w') = Return tt /\
  self (snd (Finalise w')) !! "window" = self w' !! "window".
Proof.
  intros Hw. unfold Finalise, mbind, M_bind, getattr, setattr. rewrite Hw.
  cbn [fst snd self]. rewrite !lookup_insert_eq. cbn [fst snd self title layout].
  rewrite !lookup_insert_eq. repeat split.
Qed.

(** *** [Calculate] after the start time is one [advance] *)

(** The support object: the target is the workspace's support value. *)
Lemma Calculate_tracks_support w read (st rs c : F) :
  ModelObjectName (info w) = SupportMaster ->
  NewTimeStep (info w) = true ->
  self w !! "OffsetMaster" = Some (VStr OffsetMaster) ->
  self w !! "SupportMaster" = Some (VStr SupportMaster) ->
  self w !! "StartTime" = Some (VNum st) ->
  flt (SimulationTime (info w)) st = false ->
  self w !! "RateStep" = Some (VNum rs) ->
  Workspace (info w) !! "supportdata" = Some c ->
  fst (Calculate read w) = Return tt /\
  Position0 (info (snd (Calculate read w))) = advance SupportMaster (Position0 (info w)) c rs.
Proof.
  destruct w as [s [name ts new t pos ws] th]. cbn. intros -> -> Ho Hs Hst Hlate Hrs Hc.
  match goal with
  | |- context [Calculate read ?w] =>
      change (wp (Calculate read)
                (fun o w' => o = Return tt /\
                             Position0 (info w') = advance SupportMaster pos c rs) w)
  end.
  unfold Calculate, read_sliders, define_target, track_position.
  repeat wp_step.
  all: unfold advance, PositionNew.
  all: match goal with E : fgt _ _ = _ |- _ => rewrite E end.
  all: split; reflexivity.
Qed.

(** The offset object when no slider moved: the target is the workspace's cam
    value, in metres. *)
Lemma Calculate_tracks_offset w (e : string) values win (st rs c : F) :
  ModelObjectName (info w) = OffsetMaster ->
  NewTimeStep (info w) = true ->
  self w !! "OffsetMaster" = Some (VStr OffsetMaster) ->
  self w !! "SupportMaster" = Some (VStr SupportMaster) ->
  self w !! "window" = Some (VWindow win) ->
  String.eqb e "Exit" = false -> String.eqb e "cam" = false ->
  String.eqb e "support" = false ->
  self w !! "StartTime" = Some (VNum st) ->
  flt (SimulationTime (info w)) st = false ->
  self w !! "RateStep" = Some (VNum rs) ->
  Workspace (info w) !! "camdata" = Some c ->
  fst (Calculate (Some e, values) w) = Return tt /\
  Position0 (info (snd (Calculate (Some e, values) w)))
  = advance OffsetMaster (Position0 (info w)) (c / flit 1000)%py rs.
Proof.
  destruct w as [s [name ts new t pos ws] th]. cbn.
  intros -> -> Ho Hs Hw He1 He2 He3 Hst Hlate Hrs Hc.
  match goal with
  | |- context [Calculate ?r ?w] =>
      change (wp (Calculate r)
                (fun o w' => o = Return tt /\
                             Position0 (info w') =
                             advance OffsetMaster pos (c / flit 1000)%py rs) w)
  end.
  unfold Calculate, read_sliders, define_target, track_position.
  repeat wp_step.
  all: unfold advance, PositionNew.
  all: match goal with E : fgt _ _ = _ |- _ => rewrite E end.
  all: split; reflexivity.
Qed.

(** The offset object when the cam slider moved to [v]: the new value is
    stored in the workspace and is the target at once. *)
Lemma Calculate_tracks_cam_event w values win (st rs v : F) :
  ModelObjectName (info w) = OffsetMaster ->
  NewTimeStep (info w) = true ->
  self w !! "OffsetMaster" = Some (VStr OffsetMaster) ->
  self w !! "SupportMaster" = Some (VStr SupportMaster) ->
  self w !! "window" = Some (VWindow win) ->
  values !! "cam" = Some v ->
  self w !! "StartTime" = Some (VNum st) ->
  flt (SimulationTime (info w)) st = false ->
  self w !! "RateStep" = Some (VNum rs) ->
  let w' := snd (Calculate (Some "cam", values) w) in
  fst (Calculate (Some "cam", values) w) = Return tt /\
  Workspace (info w') !! "camdata" = Some v /\
  Position0 (info w') = advance OffsetMaster (Position0 (info w)) (v / flit 1000)%py rs.
Proof.
  destruct w as [s [name ts new t pos ws] th]. cbn.
  intros -> -> Ho Hs Hw Hv Hst Hlate Hrs.
  match goal with
  | |- context [Calculate ?r ?w] =>
      change (wp (Calculate r)
                (fun o w' => o = Return tt /\
                             Workspace (info w') !! "camdata" = Some v /\
                             Position0 (info w') =
                             advance OffsetMaster pos (v / flit 1000)%py rs) w)
  end.
  unfold Calculate, read_sliders, define_target, track_position.
  repeat wp_step.
  all: unfold advance, PositionNew.
  all: match goal with E : fgt _ _ = _ |- _ => rewrite E end.
  all: repeat split; solve_lookup.
Qed.
End MethodFacts.

(** ** Before the start time *)


Section Frame.
Context {F : Type} `{Number F}.
Implicit Types w : World (F:=F).

Ltac run_cases :=
  repeat first
    [ progress cbn [fst snd self info theme Position0 SimulationTime NewTimeStep
                    ModelObjectName Workspace ImplicitConstantTimeStep]
    | progress unfold mbind, M_bind, mret, M_ret, raise, when, name_is, getnum,
        getitem, getitemnum, getattr, setattr, get_info, set_Workspace, get_Workspace,
        set_Position0, set_theme, value_of, num, item
    | match goal with
      | |- context [match ?m !! ?k with _ => _ end] => destruct (m !! k) eqn:?
      | |- context [match ?v with VNum _ => _ | _ => _ end] => destruct v
      | |- context [if ?b then _ else _] => destruct b eqn:?
      | |- context [let '(_, _) := ?p in _] => destruct p
      | |- context [match ?o with Some _ => _ | None => _ end] => destruct o
      end ].

Lemma untracked_refl w : untracked w w.
Proof. repeat split. Qed.

Lemma read_sliders_untracked (read : ReadResult) w :
  untracked w (snd (read_sliders read w)).
Proof.
  unfold read_sliders. run_cases. all: try apply untracked_refl.
  all: repeat split.
Qed.

Lemma untracked_trans (w1 w2 w3 : World (F:=F)) :
  untracked w1 w2 -> untracked w2 w3 -> untracked w1 w3.
Proof.
  intros (Hp & Ht & Hn & Hm & Ha) (Hp' & Ht' & Hn' & Hm' & Ha').
  repeat split; try congruence.
  intros attr H1 H2. rewrite Ha', Ha by assumption. reflexivity.
Qed.

Lemma define_target_untracked w :
  untracked w (snd (define_target w)).
Proof.
  unfold define_target. run_cases. all: try apply untracked_refl.
  all: repeat split; cbn; intros attr H1 H2;
    rewrite ?lookup_insert_ne by congruence; reflexivity.
Qed.

(** C10: on a new time step before the start time, [Calculate] leaves the
    position as it found it, whatever the sliders say and whatever the call's
    outcome, and the tracking block is not run: none of the attributes it
    assigns is touched. *)
Theorem Calculate_before_StartTime_keeps_position
    (read : ReadResult) w (StartTime : F) :
  NewTimeStep (info w) = true ->
  self w !! "StartTime" = Some (VNum StartTime) ->
  flt (SimulationTime (info w)) StartTime = true ->
  let w' := snd (Calculate read w) in
  Position0 (info w') = Position0 (info w) /\
  self w' !! "PositionLast" = self w !! "PositionLast" /\
  self w' !! "PositionError" = self w !! "PositionError" /\
  self w' !! "ErrorDir" = self w !! "ErrorDir".
Proof.
  intros Hnew Hstart Hearly w'. subst w'.
  pose proof (read_sliders_untracked read w) as H1.
  pose proof (define_target_untracked (snd (read_sliders read w))) as H2.
  pose proof (untracked_trans _ _ _ H1 H2) as (Hp & Ht & _ & _ & Ha).
  assert (Hframe : untracked w (snd (Calculate read w))).
  { unfold Calculate.
    unfold mbind at 1. unfold M_bind at 1. unfold get_info at 1. rewrite Hnew. cbn [negb].
    unfold mbind at 1. unfold M_bind at 1.
    destruct (read_sliders read w) as [[[] | e] w1]; [| exact H1].
    unfold mbind at 1. unfold M_bind at 1. cbn [snd] in *.
    destruct (define_target w1) as [[[] | e] w2]; [| exact (untracked_trans _ _ _ H1 H2)].
    cbn [snd] in *.
    unfold mbind at 1. unfold M_bind at 1. unfold get_info at 1.
    unfold mbind at 1. unfold M_bind at 1.
    unfold getnum, mbind, M_bind, getattr.
    rewrite (Ha "StartTime") by discriminate. rewrite Hstart. cbn [num].
    unfold mret at 1. unfold M_ret at 1. rewrite Ht, Hearly.
    exact (untracked_trans _ _ _ H1 H2). }
  destruct Hframe as (Hp' & _ & _ & _ & Ha').
  repeat split; [exact Hp' | apply Ha'; discriminate ..].
Qed.

End Frame.

(** ** The contract's example run: 0.0004 per step towards 0.050 *)

Section ExampleRun.
Local Open Scope Q_scope.

Lemma advance_on_example_grid (position : Q) :
  on_example_grid position ->
  on_example_grid (advance OffsetMaster position 0.050 0.0004).
Proof.
  intros (j & [Hj0 Hj1] & Hpos).
  assert (Hstep : 0 <= 0.0004) by (vm_compute; discriminate).
  assert (Hq0 : inject_Z 0 <= inject_Z j) by (rewrite <- Zle_Qle; exact Hj0).
  assert (Hq1 : inject_Z j <= inject_Z 124) by (rewrite <- Zle_Qle; exact Hj1).
  change (inject_Z 0) with 0 in Hq0. change (inject_Z 124) with 124 in Hq1.
  destruct (advance_exact OffsetMaster position 0.050 0.0004 Hstep)
    as [(Hc & Hs & He) | [(Hc & Hs & He) | [(Hc & Hs & He) | (Hc & Hs & He)]]].
  - exfalso. lra.
  - destruct (Qabs_cases (position - 0.050)) as [[Ha Hb] | [Ha Hb]]; [exfalso; lra |].
    exists (j + 1)%Z. split.
    + assert (Hlt : inject_Z j < inject_Z 124)
        by (change (inject_Z 124) with 124; lra).
      rewrite <- Zlt_Qlt in Hlt. lia.
    + rewrite inject_Z_plus. change (inject_Z 1) with 1. lra.
  - discriminate Hs.
  - destruct (Qabs_cases (position - 0.050)) as [[Ha Hb] | [Ha Hb]]; [exfalso; lra |].
    exists 123%Z. split; [lia |].
    change (inject_Z 123) with 123. lra.
Qed.

Lemma track_on_example_grid (n : nat) (position : Q) :
  on_example_grid position ->
  on_example_grid (track n OffsetMaster position 0.050 0.0004).
Proof.
  revert position. induction n as [| n IH]; intros position Hgrid.
  - exact Hgrid.
  - cbn [track]. apply IH, advance_on_example_grid, Hgrid.
Qed.

(** C3 on the code: from 0.0 towards 0.050 at 0.0004 per step the first
    call returns 0.0004, but the 125th position is 0.0492, and no number of
    calls brings the position above 0.0496: at 0.0496 the within-range branch
    steps back to 0.0492.  In binary64 the 125th position is not 0.050 either
    and the 126th differs from it. *)
Theorem track_example_never_settles :
  advance OffsetMaster 0 0.050 0.0004 == 0.0004 /\
  track 125 OffsetMaster 0 0.050 0.0004 == 0.0492 /\
  (forall n : nat, track n OffsetMaster 0 0.050 0.0004 <= 0.0496) /\
  advance OffsetMaster (flit 0 : float) (flit 0.050) (flit 0.0004) = flit 0.0004 /\
  feq (track 125 OffsetMaster (flit 0 : float) (flit 0.050) (flit 0.0004)) (flit 0.050)
  = false /\
  feq (track 126 OffsetMaster (flit 0 : float) (flit 0.050) (flit 0.0004))
      (track 125 OffsetMaster (flit 0 : float) (flit 0.050) (flit 0.0004))
  = false.
Proof.
  split; [vm_compute; reflexivity |].
  split; [vm_compute; reflexivity |].
  split; [| repeat split; vm_compute; reflexivity].
  intros n.
  destruct (track_on_example_grid n 0) as (j & [Hj0 Hj1] & Hpos).
  - exists 0%Z. split; [lia | reflexivity].
  - assert (Hq1 : inject_Z j <= inject_Z 124) by (rewrite <- Zle_Qle; exact Hj1).
    change (inject_Z 124) with 124 in Hq1. lra.
Qed.

(** C1 on the code: the offset object at 0.0 with the target at 0.001 (the
    cam slider at 1 mm) and a rate step of 0.002 (a time step of 0.1 s) is
    within range, and the step returns -0.001, not the target; so it does in
    binary64, and so does the whole of [Calculate] on an initialised
    instance. *)
Theorem advance_snap_from_below_misses_target :
  Qabs (0 - 0.001) <= 0.002 /\
  advance OffsetMaster 0 0.001 0.002 == -0.001 /\
  ~ advance OffsetMaster 0 0.001 0.002 == 0.001 /\
  advance OffsetMaster (flit 0 : float) (flit 0.001) (flit 0.002) = flit (-0.001) /\
  Position0 (info (run (Calculate (Some "cam"%string, {[ "cam"%string := 1 ]}))
                       (host_step 2 0 (run Initialise (new_instance OffsetMaster 0.1)))))
  == -0.001.
Proof.
  split; [vm_compute; discriminate |].
  split; [vm_compute; reflexivity |].
  split; [vm_compute; discriminate |].
  split; vm_compute; reflexivity.
Qed.

(** Rounding: in binary64 the computed change of one step can exceed the rate
    step by the rounding error of the subtraction. *)
Remark binary64_step_is_rounded :
  let next := advance SupportMaster (flit 1.7 : float) (flit 0) (flit 0.006) in
  fgt (fabs (fsub next (flit 1.7))) (flit 0.006) = true.
Proof. vm_compute. reflexivity. Qed.

End ExampleRun.

(** ** The methods on concrete instances *)

Section Instances.
Local Open Scope Q_scope.
Local Open Scope string_scope.

(** C8 as stated fails: [Initialise] on a model object called "Winch", a name
    it does not know, returns normally; and a negative time step, which makes
    the rate step negative, is stored without complaint. *)
Lemma Initialise_unknown_name_returns :
  fst (Initialise (new_instance "Winch" 0.1)) = Return tt /\
  ~ (exists e, fst (Initialise (new_instance "Winch" 0.1)) = Raise e) /\
  fst (Initialise (new_instance OffsetMaster (-0.1))) = Return tt /\
  self (run Initialise (new_instance OffsetMaster (-0.1))) !! "RateStep"
  = Some (VNum (0.02 * -0.1)).
Proof.
  split; [vm_compute; reflexivity |].
  split; [intros [e He]; vm_compute in He; discriminate He |].
  split; vm_compute; reflexivity.
Qed.

(** The unknown name shows later: once the start time has passed,
    [Calculate] raises on the target that was never assigned; before it, the
    call returns as if nothing were wrong. *)
Lemma Calculate_unknown_name_raises_later :
  let w := run Initialise (new_instance "Winch" 0.1) in
  fst (Calculate (Some "__TIMEOUT__", ∅) (host_step 0.5 0 w)) = Return tt /\
  fst (Calculate (Some "__TIMEOUT__", ∅) (host_step 2 0 w))
  = Raise (AttributeError "TargetOffset").
Proof. split; vm_compute; reflexivity. Qed.

(** On the offset object [Finalise] closes the window, twice if asked. *)
Lemma Finalise_offset_instance :
  let w := run Initialise (new_instance OffsetMaster 0.1) in
  fst (Finalise w) = Return tt /\ fst (Finalise (run Finalise w)) = Return tt.
Proof. split; vm_compute; reflexivity. Qed.

(** Closing the window or choosing Exit stops the run. *)
Lemma Calculate_exit_requested :
  let w := host_step 2 0 (run Initialise (new_instance OffsetMaster 0.1)) in
  fst (Calculate (None, ∅) w) = Raise SystemExit /\
  fst (Calculate (Some "Exit", ∅) w) = Raise SystemExit.
Proof. split; vm_compute; reflexivity. Qed.

Lemma Initialise_unrecognised_name_returns_witness :
  ModelObjectName (info (new_instance "Winch" 0.1)) <> OffsetMaster /\
  ModelObjectName (info (new_instance "Winch" 0.1)) <> SupportMaster /\
  fst (Initialise (new_instance "Winch" 0.1)) = Return tt.
Proof.
  assert (Ho : ModelObjectName (info (new_instance "Winch" 0.1)) <> OffsetMaster)
    by discriminate.
  assert (Hs : ModelObjectName (info (new_instance "Winch" 0.1)) <> SupportMaster)
    by discriminate.
  split; [exact Ho | split; [exact Hs |]].
  exact (proj1 (Initialise_unrecognised_name_returns (new_instance "Winch" 0.1) Ho Hs)).
Defined.

Lemma Finalise_without_window_raises_witness :
  fst (Finalise (snd (Initialise (new_instance SupportMaster 0.1))))
  = Raise (AttributeError "window").
Proof.
  apply (Finalise_without_window_raises (new_instance SupportMaster 0.1)).
  - discriminate.
  - reflexivity.
Defined.

Lemma Calculate_before_StartTime_keeps_position_witness :
  let w := host_step 0.5 7 (run Initialise (new_instance OffsetMaster 0.1)) in
  Position0 (info (snd (Calculate (Some "cam", {[ "cam" := 50 ]}) w))) = 7.
Proof.
  intros w.
  assert (Hnew : NewTimeStep (info w) = true) by reflexivity.
  assert (Hstart : self w !! "StartTime" = Some (VNum 1)) by (vm_compute; reflexivity).
  assert (Hearly : flt (SimulationTime (info w)) 1 = true) by reflexivity.
  exact (proj1 (Calculate_before_StartTime_keeps_position
                  (Some "cam", {[ "cam" := 50 ]}) w 1 Hnew Hstart Hearly)).
Defined.

End Instances.
